(** * StudentSystem: the legacy student store, its adapter and the demo client

    A shallow embedding of [StudentSystem.h] and [main.cpp].  Objects are
    records, member functions that mutate the object or write to [std::cout]
    are computations in a small state-and-output monad, [const] member
    functions are plain functions of the object. *)

From Stdlib Require Import ZArith String Ascii Bool Lia List.
From Stdlib Require Import SpecFloat DecimalString.
Import ListNotations.

Local Open Scope string_scope.
Local Open Scope Z_scope.

(** ** The C++ base types the program uses *)

Module Cxx.

(** [int] is a 32-bit two's-complement integer. *)
Definition INT_MIN : Z := - 2 ^ 31.
Definition INT_MAX : Z := 2 ^ 31 - 1.

Definition in_int (z : Z) : Prop := INT_MIN <= z <= INT_MAX.

(** Conversion of an unsigned [size_t] value to [int]: the value is
    reduced modulo 2^32 into the range of [int]. *)
Definition int_of_size_t (n : Z) : Z :=
  (n + 2 ^ 31) mod 2 ^ 32 - 2 ^ 31.

(** [float] is IEEE-754 binary32, [double] is binary64; both are carried
    by [spec_float], with the precision and exponent bound of the format. *)
Definition float := spec_float.
Definition double := spec_float.

Definition float_prec : Z := 24.
Definition float_emax : Z := 128.
Definition double_prec : Z := 53.
Definition double_emax : Z := 1024.

Definition is_float (f : float) : bool := valid_binary float_prec float_emax f.
Definition is_double (d : double) : bool :=
  valid_binary double_prec double_emax d.

(** [static_cast<float>(d)]: round to nearest, ties to even; a magnitude
    beyond the largest float becomes an infinity. *)
Definition static_cast_float (d : double) : float :=
  match d with
  | S754_finite s m e =>
      binary_normalize float_prec float_emax (cond_Zopp s (Zpos m)) e s
  | _ => d
  end.

(** The promotion of a [float] to [double] (exact). *)
Definition double_of_float (f : float) : double :=
  match f with
  | S754_finite s m e =>
      binary_normalize double_prec double_emax (cond_Zopp s (Zpos m)) e s
  | _ => f
  end.

(** A decimal literal [n / 10^k] of type [double], as the compiler reads
    it: the double nearest to the quotient. *)
Definition double_literal (n : Z) (k : nat) : double :=
  SFdiv double_prec double_emax
    (binary_normalize double_prec double_emax n 0 false)
    (binary_normalize double_prec double_emax (10 ^ Z.of_nat k) 0 false).

(** [std::to_string(int)]: the decimal digits, with a leading minus sign
    for a negative value. *)
Definition to_string_int (z : Z) : string :=
  NilZero.string_of_int (Z.to_int z).

(** The decimal digits of [n], padded with zeros to exactly [k] digits. *)
Fixpoint fixed_digits (k : nat) (n : Z) (acc : string) : string :=
  match k with
  | O => acc
  | S k' =>
      fixed_digits k' (n / 10)
        (String (ascii_of_nat (48 + Z.to_nat (n mod 10))) acc)
  end.

(** The magnitude [m * 2^e] times 10^6, rounded to the nearest integer,
    ties to even. *)
Definition scaled_millionths (m : positive) (e : Z) : Z :=
  if 0 <=? e then Zpos m * 2 ^ e * 1000000
  else
    let num := Zpos m * 1000000 in
    let den := 2 ^ (- e) in
    let q := num / den in
    let r := num mod den in
    if (den <? 2 * r) || ((den =? 2 * r) && Z.odd q) then q + 1 else q.

(** [std::to_string] on a floating value prints it as [printf("%f")]
    does: sign, integer part, a point and six decimals, the exact value
    rounded to the nearest millionth, ties to even. *)
Definition to_string_float (f : spec_float) : string :=
  match f with
  | S754_zero s => (if s then "-" else "") ++ "0.000000"
  | S754_infinity s => (if s then "-" else "") ++ "inf"
  | S754_nan => "nan"
  | S754_finite s m e =>
      let n := scaled_millionths m e in
      (if s then "-" else "")
        ++ to_string_int (n / 1000000)
        ++ "."
        ++ fixed_digits 6 (n mod 1000000) ""
  end.

(** [std::endl]. *)
Definition endl : string := String (ascii_of_nat 10) "".

(** [std::remove_if(v.begin(), v.end(), pred)], by its specification: the
    elements that do not satisfy [pred] are moved to the front in their
    original order and the position after them is returned.  The values
    left behind that position are unspecified by the standard; they are
    kept here as the old contents of those slots. *)
Definition remove_if {A : Type} (pred : A -> bool) (v : list A)
  : list A * nat :=
  let kept := filter (fun x => negb (pred x)) v in
  ((kept ++ skipn (length kept) v)%list, length kept).

(** [v.erase(it, v.end())]. *)
Definition erase_to_end {A : Type} (v : list A) (it : nat) : list A :=
  firstn it v.

(** [v.push_back(x)]. *)
Definition push_back {A : Type} (v : list A) (x : A) : list A :=
  (v ++ [x])%list.

End Cxx.

Import Cxx.

(** ** Member functions as computations

    A non-const member function run on an object of type [Obj] yields its
    return value, the object afterwards and the text it sent to
    [std::cout]. *)

Module Method.

Definition t (Obj A : Type) : Type := Obj -> A * Obj * string.

Definition ret {Obj A : Type} (a : A) : t Obj A :=
  fun o => (a, o, "").

Definition bind {Obj A B : Type} (c : t Obj A) (k : A -> t Obj B)
  : t Obj B :=
  fun o =>
    let '(a, o1, out1) := c o in
    let '(b, o2, out2) := k a o1 in
    (b, o2, out1 ++ out2).

(** Reading and overwriting the object's fields. *)
Definition this {Obj : Type} : t Obj Obj :=
  fun o => (o, o, "").

Definition assign {Obj : Type} (o' : Obj) : t Obj unit :=
  fun _ => (tt, o', "").

(** [std::cout << s]. *)
Definition cout {Obj : Type} (s : string) : t Obj unit :=
  fun o => (tt, o, s).

(** A range-based [for] whose body only has effects. *)
Fixpoint for_each {Obj A : Type} (body : A -> t Obj unit) (xs : list A)
  : t Obj unit :=
  match xs with
  | [] => ret tt
  | x :: xs' => bind (body x) (fun _ => for_each body xs')
  end.

Definition result {Obj A : Type} (c : t Obj A) (o : Obj) : A :=
  fst (fst (c o)).

Definition object_after {Obj A : Type} (c : t Obj A) (o : Obj) : Obj :=
  snd (fst (c o)).

Definition output {Obj A : Type} (c : t Obj A) (o : Obj) : string :=
  snd (c o).

End Method.

Notation "x <- c ;; k" := (Method.bind c (fun x => k))
  (at level 61, c at next level, right associativity).
Notation "c ;; k" := (Method.bind c (fun _ => k))
  (at level 61, right associativity).

(** ** class LegacyStudentDatabase *)

Module LegacyStudentDatabase.

Record StudentRecord : Type := {
  studentId : Z;
  fullName : string;
  academicScore : float
}.

Record t : Type := { records : list StudentRecord }.

(** The implicit default constructor: an empty vector. *)
Definition new : t := {| records := [] |}.

Definition msg_added (studentId : Z) : string :=
  "Legacy system: Added student with ID " ++ to_string_int studentId ++ endl.

Definition msg_removed (studentId : Z) : string :=
  "Legacy system: Removed student with ID " ++ to_string_int studentId
    ++ endl.

Definition msg_updated (studentId : Z) : string :=
  "Legacy system: Updated student with ID " ++ to_string_int studentId
    ++ endl.

Definition msg_not_found (studentId : Z) : string :=
  "Legacy system: Student with ID " ++ to_string_int studentId
    ++ " not found" ++ endl.

Definition insertStudentRecord (studentId : Z) (fullName : string)
    (academicScore : float) : Method.t t unit :=
  db <- Method.this ;;
  Method.assign
    {| records :=
         push_back (records db)
           {| studentId := studentId;
              fullName := fullName;
              academicScore := academicScore |} |} ;;
  Method.cout (msg_added studentId).

(** The predicate handed to [std::remove_if]; it captures [studentId]. *)
Definition matches (studentId : Z) (record : StudentRecord) : bool :=
  record.(LegacyStudentDatabase.studentId) =? studentId.

Definition deleteStudentRecord (studentId : Z) : Method.t t unit :=
  db <- Method.this ;;
  let '(v, it) := remove_if (matches studentId) (records db) in
  Method.assign {| records := v |} ;;
  if negb (Nat.eqb it (length v)) then
    Method.assign {| records := erase_to_end v it |} ;;
    Method.cout (msg_removed studentId)
  else
    Method.cout (msg_not_found studentId).

(** The loop of [updateStudentRecord]: [Some] of the new vector when a
    record matched and the function returned from inside the loop, [None]
    when the loop ran to the end. *)
Fixpoint update_loop (studentId : Z) (fullName : string)
    (academicScore : float) (rs : list StudentRecord)
  : option (list StudentRecord) :=
  match rs with
  | [] => None
  | record :: rest =>
      if record.(LegacyStudentDatabase.studentId) =? studentId then
        Some ({| studentId := record.(LegacyStudentDatabase.studentId);
                 fullName := fullName;
                 academicScore := academicScore |} :: rest)
      else
        option_map (cons record)
          (update_loop studentId fullName academicScore rest)
  end.

Definition updateStudentRecord (studentId : Z) (fullName : string)
    (academicScore : float) : Method.t t unit :=
  db <- Method.this ;;
  match update_loop studentId fullName academicScore (records db) with
  | Some rs =>
      Method.assign {| records := rs |} ;;
      Method.cout (msg_updated studentId)
  | None =>
      Method.cout (msg_not_found studentId)
  end.

(** [records.size()] is a [size_t]; the return type is [int]. *)
Definition getRecordCount (db : t) : Z :=
  int_of_size_t (Z.of_nat (length (records db))).

Definition format_record (record : StudentRecord) : string :=
  "ID: " ++ to_string_int record.(studentId)
    ++ ", Name: " ++ record.(fullName)
    ++ ", Score: " ++ to_string_float record.(academicScore).

Definition fetchAllRecords (db : t) : list string :=
  fold_left (fun result record => push_back result (format_record record))
    (records db) [].

End LegacyStudentDatabase.

(** ** class ModernStudentSystem: the interface the client expects *)

Module ModernStudentSystem.

(** The pure virtual member functions; an instance is a class that
    overrides them.  The two [const] members are taken as functions of the
    object, as the overrides of [StudentSystemAdapter] are: they print
    nothing and change nothing. *)
Class t (T : Type) : Type := {
  addStudent : Z -> string -> double -> Method.t T unit;
  removeStudent : Z -> Method.t T unit;
  updateStudentDetails : Z -> string -> double -> Method.t T unit;
  getAllStudentsInfo : T -> list string;
  getTotalStudents : T -> Z
}.

End ModernStudentSystem.

(** ** class StudentSystemAdapter *)

Module StudentSystemAdapter.

Record t : Type := { legacySystem : LegacyStudentDatabase.t }.

(** The constructor makes a fresh legacy database. *)
Definition new : t := {| legacySystem := LegacyStudentDatabase.new |}.

(** A call [legacySystem->f(...)]. *)
Definition on_legacy {A : Type} (c : Method.t LegacyStudentDatabase.t A)
  : Method.t t A :=
  fun self =>
    let '(a, db, out) := c (legacySystem self) in
    (a, {| legacySystem := db |}, out).

Definition addStudent (id : Z) (name : string) (gpa : double)
  : Method.t t unit :=
  let academicScore := static_cast_float gpa in
  on_legacy (LegacyStudentDatabase.insertStudentRecord id name academicScore).

Definition removeStudent (id : Z) : Method.t t unit :=
  on_legacy (LegacyStudentDatabase.deleteStudentRecord id).

Definition updateStudentDetails (id : Z) (name : string) (gpa : double)
  : Method.t t unit :=
  let academicScore := static_cast_float gpa in
  on_legacy (LegacyStudentDatabase.updateStudentRecord id name academicScore).

Definition getAllStudentsInfo (self : t) : list string :=
  LegacyStudentDatabase.fetchAllRecords (legacySystem self).

Definition getTotalStudents (self : t) : Z :=
  LegacyStudentDatabase.getRecordCount (legacySystem self).

End StudentSystemAdapter.

#[export] Instance StudentSystemAdapter_ModernStudentSystem
  : ModernStudentSystem.t StudentSystemAdapter.t := {|
  ModernStudentSystem.addStudent := StudentSystemAdapter.addStudent;
  ModernStudentSystem.removeStudent := StudentSystemAdapter.removeStudent;
  ModernStudentSystem.updateStudentDetails :=
    StudentSystemAdapter.updateStudentDetails;
  ModernStudentSystem.getAllStudentsInfo :=
    StudentSystemAdapter.getAllStudentsInfo;
  ModernStudentSystem.getTotalStudents :=
    StudentSystemAdapter.getTotalStudents
|}.

(** ** class StudentManagementClient

    The client holds a pointer to some [ModernStudentSystem]; its member
    functions are computations on the object pointed to. *)

Module StudentManagementClient.
Section Client.
Context {T : Type} `{ModernStudentSystem.t T}.

Definition registerNewStudent (id : Z) (name : string) (gpa : double)
  : Method.t T unit :=
  ModernStudentSystem.addStudent id name gpa.

Definition removeStudent (id : Z) : Method.t T unit :=
  ModernStudentSystem.removeStudent id.

Definition updateStudentDetails (id : Z) (name : string) (gpa : double)
  : Method.t T unit :=
  ModernStudentSystem.updateStudentDetails id name gpa.

Definition displayAllStudents : Method.t T unit :=
  system <- Method.this ;;
  Method.cout
    ("Total Students: "
       ++ to_string_int (ModernStudentSystem.getTotalStudents system)
       ++ endl) ;;
  let students := ModernStudentSystem.getAllStudentsInfo system in
  Method.for_each (fun info => Method.cout (info ++ endl)) students.
End Client.
End StudentManagementClient.

(** ** main.cpp *)

Module Main.
Import StudentManagementClient.

(** The newline character written as an escape in the string literals
    of [main]. *)
Definition nl : string := String (ascii_of_nat 10) "".

(** The three registrations at the start of [main]. *)
Definition register_three : Method.t StudentSystemAdapter.t unit :=
  registerNewStudent 1001 "John Smith" (double_literal 375 2) ;;
  registerNewStudent 1002 "Emily Johnson" (double_literal 392 2) ;;
  registerNewStudent 1003 "Michael Brown" (double_literal 345 2).

Definition remove_one : Method.t StudentSystemAdapter.t unit :=
  Method.cout (nl ++ "Removing student with ID 1002..." ++ nl) ;;
  removeStudent 1002.

Definition update_one : Method.t StudentSystemAdapter.t unit :=
  Method.cout (nl ++ "Updating details for student with ID 1003..." ++ nl) ;;
  updateStudentDetails 1003 "Michael Brown Jr." (double_literal 385 2).

(** The body of [main], run on the adapter it creates. *)
Definition main_body : Method.t StudentSystemAdapter.t Z :=
  Method.cout ("Welcome to Student Management System" ++ nl) ;;
  Method.cout ("====================================" ++ nl) ;;
  register_three ;;
  Method.cout (nl ++ "Student Records:" ++ nl) ;;
  Method.cout ("----------------" ++ nl) ;;
  displayAllStudents ;;
  remove_one ;;
  Method.cout (nl ++ "Updated Student Records:" ++ nl) ;;
  Method.cout ("-------------------------" ++ nl) ;;
  displayAllStudents ;;
  update_one ;;
  Method.cout (nl ++ "Final Student Records:" ++ nl) ;;
  Method.cout ("-----------------------" ++ nl) ;;
  displayAllStudents ;;
  Method.ret 0.

(** [main]: the exit code and everything written to [std::cout]. *)
Definition main : Z * string :=
  (Method.result main_body StudentSystemAdapter.new,
   Method.output main_body StudentSystemAdapter.new).

End Main.

(** ** Sequences of operations

    A script is a finite sequence of mutating calls on the store; the
    adapter has the same three mutating calls, with a [double] score. *)

Module Script.
Import LegacyStudentDatabase.

Inductive op : Type :=
| Insert (studentId : Z) (fullName : string) (academicScore : float)
| Delete (studentId : Z)
| Update (studentId : Z) (fullName : string) (academicScore : float).

Definition step (o : op) : Method.t t unit :=
  match o with
  | Insert id name score => insertStudentRecord id name score
  | Delete id => deleteStudentRecord id
  | Update id name score => updateStudentRecord id name score
  end.

Definition run (ops : list op) : Method.t t unit :=
  Method.for_each step ops.

Definition store_after (ops : list op) (db : t) : t :=
  Method.object_after (run ops) db.

Definition is_insert (o : op) : bool :=
  match o with Insert _ _ _ => true | _ => false end.

(** The number of insert operations in a script. *)
Definition inserts (ops : list op) : Z :=
  Z.of_nat (length (filter is_insert ops)).

(** A delete reports success when the line it prints is the "Removed"
    line; that line is the only trace the call leaves. *)
Definition reports_removed (o : op) (db : t) : bool :=
  match o with
  | Delete id => String.eqb (Method.output (step o) db) (msg_removed id)
  | _ => false
  end.

(** The number of deletes of a script, run from [db], that report
    success. *)
Fixpoint successful_deletes (ops : list op) (db : t) : Z :=
  match ops with
  | [] => 0
  | o :: rest =>
      (if reports_removed o db then 1 else 0)
      + successful_deletes rest (Method.object_after (step o) db)
  end.

Definition has_id (id : Z) (db : t) : bool :=
  existsb (matches id) (records db).

(** The ids of the stored records, in storage order. *)
Definition ids (db : t) : list Z := map studentId (records db).

(** No two stored records share an id. *)
Definition ids_distinct (db : t) : Prop := NoDup (ids db).

(** The number of stored records with a given id. *)
Definition count_id (id : Z) (db : t) : nat :=
  length (filter (matches id) (records db)).

(** Every insert of the script, run from [db], uses an id that no stored
    record has at that moment. *)
Fixpoint inserts_fresh (ops : list op) (db : t) : bool :=
  match ops with
  | [] => true
  | o :: rest =>
      match o with
      | Insert id _ _ => negb (has_id id db)
      | _ => true
      end
      && inserts_fresh rest (Method.object_after (step o) db)
  end.

Definition deletes_id (id : Z) (o : op) : bool :=
  match o with Delete id' => id' =? id | _ => false end.

Definition inserts_id (id : Z) (o : op) : bool :=
  match o with Insert id' _ _ => id' =? id | _ => false end.

(** The insert operation that stores a given record. *)
Definition insert_of (record : StudentRecord) : op :=
  Insert record.(studentId) record.(fullName) record.(academicScore).

End Script.

Module Calls.

Inductive call : Type :=
| Add (id : Z) (name : string) (gpa : double)
| Remove (id : Z)
| UpdateDetails (id : Z) (name : string) (gpa : double).

(** A call through the [ModernStudentSystem] interface. *)
Definition invoke {T : Type} `{ModernStudentSystem.t T} (c : call)
  : Method.t T unit :=
  match c with
  | Add id name gpa => ModernStudentSystem.addStudent id name gpa
  | Remove id => ModernStudentSystem.removeStudent id
  | UpdateDetails id name gpa =>
      ModernStudentSystem.updateStudentDetails id name gpa
  end.

Definition run {T : Type} `{ModernStudentSystem.t T} (cs : list call)
  : Method.t T unit :=
  Method.for_each invoke cs.

End Calls.

(** ** The adapter as the specification words it

    "A pure translation shim": each operation is the store operation of the
    same meaning, applied to the store itself, with the score narrowed to
    single precision where there is one. *)

Module Shim.

Definition narrow (gpa : double) : float := static_cast_float gpa.

Definition add (id : Z) (name : string) (gpa : double) : Script.op :=
  Script.Insert id name (narrow gpa).

Definition remove (id : Z) : Script.op :=
  Script.Delete id.

Definition update (id : Z) (name : string) (gpa : double) : Script.op :=
  Script.Update id name (narrow gpa).

Definition listAll (store : LegacyStudentDatabase.t) : list string :=
  LegacyStudentDatabase.fetchAllRecords store.

Definition total (store : LegacyStudentDatabase.t) : Z :=
  LegacyStudentDatabase.getRecordCount store.

Definition translate (c : Calls.call) : Script.op :=
  match c with
  | Calls.Add id name gpa => add id name gpa
  | Calls.Remove id => remove id
  | Calls.UpdateDetails id name gpa => update id name gpa
  end.

End Shim.

(** ** Stores used as concrete inputs *)

Module Samples.
Import LegacyStudentDatabase.

Definition score_0 : float := S754_zero false.

Definition rec_a : StudentRecord :=
  {| studentId := 7; fullName := "Ann"; academicScore := score_0 |}.
Definition rec_b : StudentRecord :=
  {| studentId := 9; fullName := "Bob"; academicScore := score_0 |}.
Definition rec_a' : StudentRecord :=
  {| studentId := 7; fullName := "Ann II"; academicScore := score_0 |}.

(** A store with a duplicated id. *)
Definition with_duplicate : t := {| records := [rec_b; rec_a; rec_a'] |}.

(** Two inserts of one id followed by one delete of it. *)
Definition insert_twice_delete_once : list Script.op :=
  [Script.Insert 1 "A" score_0; Script.Insert 1 "B" score_0;
   Script.Delete 1].

(** The record with id [i] and nothing else of interest. *)
Definition blank (i : nat) : StudentRecord :=
  {| studentId := Z.of_nat i; fullName := ""; academicScore := score_0 |}.

(** [n] records with the ids 0, 1, ..., n - 1. *)
Definition blanks (n : nat) : list StudentRecord := map blank (seq 0 n).

(** The number of records just beyond the range of [int]. *)
Definition beyond_int : nat := Z.to_nat (2 ^ 31).

(** A store whose ids are pairwise distinct. *)
Definition distinct_store : t := {| records := [rec_b; rec_a] |}.

End Samples.

(** * Properties *)

(** ** The store operations, one by one *)

Section StoreFacts.
Import LegacyStudentDatabase.

Lemma filter_keeps_all {A : Type} (f : A -> bool) (l : list A) :
  forallb f l = true -> filter f l = l.
Proof.
  induction l as [|x l IH]; simpl; intros Hall; [reflexivity|].
  apply andb_true_iff in Hall as [Hx Hl].
  rewrite Hx, (IH Hl). reflexivity.
Qed.

Lemma filter_drops_some {A : Type} (f : A -> bool) (l : list A) :
  forallb f l = false -> (length (filter f l) < length l)%nat.
Proof.
  induction l as [|x l IH]; simpl; intros Hall; [discriminate|].
  pose proof (filter_length_le f l) as Hle.
  destruct (f x) eqn:Hx; simpl in *.
  - apply IH in Hall. lia.
  - lia.
Qed.

Lemma forallb_negb_existsb {A : Type} (f : A -> bool) (l : list A) :
  forallb (fun x => negb (f x)) l = negb (existsb f l).
Proof.
  induction l as [|x l IH]; simpl; [reflexivity|].
  rewrite IH, negb_orb. reflexivity.
Qed.

(** [remove_if] keeps the length of the vector and returns the number of
    elements that stay. *)
Lemma remove_if_length {A : Type} (pred : A -> bool) (v : list A) :
  length (fst (remove_if pred v)) = length v.
Proof.
  unfold remove_if; simpl.
  pose proof (filter_length_le (fun x => negb (pred x)) v) as Hle.
  rewrite length_app, length_skipn. lia.
Qed.

Lemma remove_if_prefix {A : Type} (pred : A -> bool) (v : list A) :
  firstn (snd (remove_if pred v)) (fst (remove_if pred v))
  = filter (fun x => negb (pred x)) v.
Proof.
  unfold remove_if; simpl.
  rewrite firstn_app, Nat.sub_diag, firstn_all. simpl.
  apply app_nil_r.
Qed.

Lemma remove_if_none {A : Type} (pred : A -> bool) (v : list A) :
  existsb pred v = false -> remove_if pred v = (v, length v).
Proof.
  intros Hnone. unfold remove_if.
  rewrite filter_keeps_all
    by (rewrite forallb_negb_existsb, Hnone; reflexivity).
  rewrite skipn_all, app_nil_r. reflexivity.
Qed.

Lemma insertStudentRecord_eq (id : Z) (name : string) (score : float)
    (db : t) :
  insertStudentRecord id name score db
  = (tt,
     {| records :=
          (records db
             ++ [{| studentId := id; fullName := name;
                    academicScore := score |}])%list |},
     msg_added id).
Proof. reflexivity. Qed.

(** Deleting keeps exactly the records with another id, in their order,
    and prints "Removed" when there was a match, "not found" otherwise. *)
Lemma deleteStudentRecord_eq (id : Z) (db : t) :
  deleteStudentRecord id db
  = (tt,
     {| records := filter (fun r => negb (matches id r)) (records db) |},
     if existsb (matches id) (records db)
     then msg_removed id else msg_not_found id).
Proof.
  unfold deleteStudentRecord, Method.bind, Method.this, Method.assign,
    Method.cout.
  pose proof (remove_if_length (matches id) (records db)) as Hlen.
  pose proof (remove_if_prefix (matches id) (records db)) as Hpre.
  destruct (existsb (matches id) (records db)) eqn:Hex.
  - destruct (remove_if (matches id) (records db)) as [v it] eqn:Hrm.
    simpl in Hlen, Hpre.
    assert (Hlt : (it < length v)%nat).
    { rewrite Hlen.
      replace it
        with (length (filter (fun x => negb (matches id x)) (records db)))
        by (unfold remove_if in Hrm; congruence).
      apply filter_drops_some.
      rewrite forallb_negb_existsb, Hex. reflexivity. }
    apply Nat.lt_neq, Nat.eqb_neq in Hlt. rewrite Hlt. simpl.
    unfold erase_to_end. rewrite Hpre. reflexivity.
  - rewrite (remove_if_none _ _ Hex). rewrite Nat.eqb_refl. simpl.
    rewrite filter_keeps_all
      by (rewrite forallb_negb_existsb, Hex; reflexivity).
    reflexivity.
Qed.

Lemma update_loop_none (id : Z) (name : string) (score : float)
    (rs : list StudentRecord) :
  existsb (matches id) rs = false -> update_loop id name score rs = None.
Proof.
  induction rs as [|r rs IH]; simpl; intros Hex; [reflexivity|].
  apply orb_false_iff in Hex as [Hr Hrs].
  unfold matches in Hr. rewrite Hr, (IH Hrs). reflexivity.
Qed.

Lemma update_loop_first (id : Z) (name : string) (score : float)
    (l1 l2 : list StudentRecord) (r : StudentRecord) :
  existsb (matches id) l1 = false ->
  matches id r = true ->
  update_loop id name score (l1 ++ r :: l2)%list
  = Some (l1 ++ {| studentId := r.(studentId); fullName := name;
                   academicScore := score |} :: l2)%list.
Proof.
  intros Hl1 Hr. induction l1 as [|x l1 IH]; simpl.
  - unfold matches in Hr. rewrite Hr. reflexivity.
  - simpl in Hl1. apply orb_false_iff in Hl1 as [Hx Hl1].
    unfold matches in Hx. rewrite Hx, (IH Hl1). reflexivity.
Qed.

(** The first matching record splits the vector. *)
Lemma first_match_split (id : Z) (rs : list StudentRecord) :
  existsb (matches id) rs = true ->
  exists l1 r l2,
    rs = (l1 ++ r :: l2)%list
    /\ existsb (matches id) l1 = false
    /\ matches id r = true.
Proof.
  induction rs as [|x rs IH]; simpl; intros Hex; [discriminate|].
  destruct (matches id x) eqn:Hx.
  - exists [], x, rs. auto.
  - destruct (IH Hex) as (l1 & r & l2 & -> & Hl1 & Hr).
    exists (x :: l1), r, l2. simpl. rewrite Hx. auto.
Qed.

Lemma fold_push_back_map {A B : Type} (f : A -> B) (l : list A)
    (acc : list B) :
  fold_left (fun result x => push_back result (f x)) l acc
  = (acc ++ map f l)%list.
Proof.
  revert acc. induction l as [|x l IH]; intros acc; simpl.
  - symmetry. apply app_nil_r.
  - rewrite IH. unfold push_back. rewrite <- app_assoc. reflexivity.
Qed.

Lemma fetchAllRecords_map (db : t) :
  fetchAllRecords db = map format_record (records db).
Proof.
  unfold fetchAllRecords.
  apply (fold_push_back_map format_record (records db) []).
Qed.

Lemma fetchAllRecords_length (db : t) :
  length (fetchAllRecords db) = length (records db).
Proof. rewrite fetchAllRecords_map. apply length_map. Qed.

(** Within the range of [int] the count is the length of the vector. *)
Lemma int_of_size_t_small (n : Z) :
  0 <= n <= INT_MAX -> int_of_size_t n = n.
Proof.
  unfold int_of_size_t, INT_MAX. intros Hn.
  rewrite Z.mod_small by lia. lia.
Qed.

Lemma getRecordCount_small (db : t) :
  Z.of_nat (length (records db)) <= INT_MAX ->
  getRecordCount db = Z.of_nat (length (records db)).
Proof.
  intros Hn. unfold getRecordCount. apply int_of_size_t_small. lia.
Qed.

Lemma updateStudentRecord_found (id : Z) (name : string) (score : float)
    (db : t) (l1 l2 : list StudentRecord) (r : StudentRecord) :
  records db = (l1 ++ r :: l2)%list ->
  existsb (matches id) l1 = false ->
  matches id r = true ->
  updateStudentRecord id name score db
  = (tt,
     {| records :=
          (l1 ++ {| studentId := r.(studentId); fullName := name;
                    academicScore := score |} :: l2)%list |},
     msg_updated id).
Proof.
  intros Hdb Hl1 Hr.
  unfold updateStudentRecord, Method.bind, Method.this.
  rewrite Hdb, (update_loop_first id name score l1 l2 r Hl1 Hr).
  reflexivity.
Qed.

Lemma updateStudentRecord_not_found (id : Z) (name : string)
    (score : float) (db : t) :
  existsb (matches id) (records db) = false ->
  updateStudentRecord id name score db = (tt, db, msg_not_found id).
Proof.
  intros Hex.
  unfold updateStudentRecord, Method.bind, Method.this.
  rewrite (update_loop_none id name score _ Hex). reflexivity.
Qed.

(** An update never changes the ids nor their order. *)
Lemma updateStudentRecord_ids (id : Z) (name : string) (score : float)
    (db : t) :
  Script.ids (Method.object_after (updateStudentRecord id name score) db)
  = Script.ids db.
Proof.
  unfold Method.object_after, Script.ids.
  destruct (existsb (matches id) (records db)) eqn:Hex.
  - destruct (first_match_split id _ Hex) as (l1 & r & l2 & Hdb & Hl1 & Hr).
    rewrite (updateStudentRecord_found id name score db l1 l2 r Hdb Hl1 Hr).
    simpl. rewrite Hdb, !map_app. reflexivity.
  - rewrite (updateStudentRecord_not_found id name score db Hex).
    reflexivity.
Qed.

(** The two lines a delete can print are different lines. *)
Lemma msg_not_found_is_not_removed (id : Z) :
  String.eqb (msg_not_found id) (msg_removed id) = false.
Proof.
  apply String.eqb_neq. unfold msg_not_found, msg_removed. simpl.
  discriminate.
Qed.

Lemma count_matches_by_ids (id : Z) (rs : list StudentRecord) :
  length (filter (matches id) rs)
  = length (filter (fun i => i =? id) (map studentId rs)).
Proof.
  induction rs as [|r rs IH]; simpl; [reflexivity|].
  unfold matches at 1. destruct (studentId r =? id); simpl; congruence.
Qed.

Lemma existsb_matches_In (id : Z) (rs : list StudentRecord) :
  existsb (matches id) rs = true <-> In id (map studentId rs).
Proof.
  rewrite existsb_exists, in_map_iff. unfold matches.
  split; intros (r & H1 & H2).
  - exists r. apply Z.eqb_eq in H2. auto.
  - exists r. split; [assumption|]. apply Z.eqb_eq. assumption.
Qed.

Lemma filter_split_length {A : Type} (f : A -> bool) (l : list A) :
  (length (filter f l) + length (filter (fun x => negb (f x)) l)
   = length l)%nat.
Proof.
  induction l as [|x l IH]; simpl; [reflexivity|].
  destruct (f x); simpl; lia.
Qed.

Lemma filter_none {A : Type} (f : A -> bool) (l : list A) :
  existsb f l = false -> filter f l = [].
Proof.
  induction l as [|x l IH]; simpl; intros Hex; [reflexivity|].
  apply orb_false_iff in Hex as [Hx Hl]. rewrite Hx. exact (IH Hl).
Qed.

(** With pairwise distinct ids at most one record matches an id. *)
Lemma distinct_ids_one_match (id : Z) (rs : list StudentRecord) :
  NoDup (map studentId rs) ->
  existsb (matches id) rs = true ->
  length (filter (matches id) rs) = 1%nat.
Proof.
  induction rs as [|r rs IH]; simpl; intros Hnd Hex; [discriminate|].
  inversion Hnd as [|? ? Hnotin Hnd']; subst.
  destruct (matches id r) eqn:Hr; simpl.
  - destruct (existsb (matches id) rs) eqn:Hrs.
    + exfalso. apply Hnotin. apply existsb_matches_In in Hrs.
      unfold matches in Hr. apply Z.eqb_eq in Hr. congruence.
    + rewrite (filter_none _ _ Hrs). reflexivity.
  - apply IH; assumption.
Qed.

Lemma map_filter_ids (f : Z -> bool) (rs : list StudentRecord) :
  map studentId (filter (fun r => f (studentId r)) rs)
  = filter f (map studentId rs).
Proof.
  induction rs as [|r rs IH]; simpl; [reflexivity|].
  destruct (f (studentId r)); simpl; congruence.
Qed.

End StoreFacts.

(** ** The scripted demo *)

Section Demo.
Import Main.

(** C1. The demo of [main]: after the three registrations the total is 3;
    after removing 1002 the total is 2 and the listing holds the entries
    of 1001 and 1003, in that order; after the update the listing shows
    the new name and score of 1003 and the entry of 1001 as before.  The
    three phases, with the lines [main] prints around them, are the whole
    of [main]. *)
Theorem demo_scenario :
  let s0 := StudentSystemAdapter.new in
  let s1 := Method.object_after register_three s0 in
  let s2 := Method.object_after remove_one s1 in
  let s3 := Method.object_after update_one s2 in
  ModernStudentSystem.getTotalStudents s1 = 3
  /\ ModernStudentSystem.getTotalStudents s2 = 2
  /\ ModernStudentSystem.getAllStudentsInfo s2
     = ["ID: 1001, Name: John Smith, Score: 3.750000";
        "ID: 1003, Name: Michael Brown, Score: 3.450000"]
  /\ Script.ids (StudentSystemAdapter.legacySystem s2) = [1001; 1003]
  /\ ModernStudentSystem.getAllStudentsInfo s3
     = ["ID: 1001, Name: John Smith, Score: 3.750000";
        "ID: 1003, Name: Michael Brown Jr., Score: 3.850000"]
  /\ ModernStudentSystem.getTotalStudents s3 = 2
  /\ Method.object_after main_body s0 = s3
  /\ fst main = 0.
Proof. vm_compute. repeat split; reflexivity. Qed.

(** What [main] writes to the console, line by line. *)
Example main_console_output :
  snd main
  = String.concat ""
      (map (fun line => line ++ nl)
         ["Welcome to Student Management System";
          "====================================";
          "Legacy system: Added student with ID 1001";
          "Legacy system: Added student with ID 1002";
          "Legacy system: Added student with ID 1003";
          "";
          "Student Records:";
          "----------------";
          "Total Students: 3";
          "ID: 1001, Name: John Smith, Score: 3.750000";
          "ID: 1002, Name: Emily Johnson, Score: 3.920000";
          "ID: 1003, Name: Michael Brown, Score: 3.450000";
          "";
          "Removing student with ID 1002...";
          "Legacy system: Removed student with ID 1002";
          "";
          "Updated Student Records:";
          "-------------------------";
          "Total Students: 2";
          "ID: 1001, Name: John Smith, Score: 3.750000";
          "ID: 1003, Name: Michael Brown, Score: 3.450000";
          "";
          "Updating details for student with ID 1003...";
          "Legacy system: Updated student with ID 1003";
          "";
          "Final Student Records:";
          "-----------------------";
          "Total Students: 2";
          "ID: 1001, Name: John Smith, Score: 3.750000";
          "ID: 1003, Name: Michael Brown Jr., Score: 3.850000"]).
Proof. vm_compute. reflexivity. Qed.

End Demo.

(** ** Deleting, updating and inserting by id *)

Section ById.
Import LegacyStudentDatabase.

(** C3. [deleteStudentRecord] keeps exactly the records whose id differs
    from the given one, in their order, so every matching record goes and
    not only the first.  When no record matches, the store and its count
    are as before and the "not found" line is printed; this covers the
    empty store.  The call always returns. *)
Theorem deleteStudentRecord_removes_every_match (db : t) (id : Z) :
  let db' := Method.object_after (deleteStudentRecord id) db in
  let out := Method.output (deleteStudentRecord id) db in
  records db' = filter (fun r => negb (r.(studentId) =? id)) (records db)
  /\ (forall r, In r (records db') <->
                In r (records db) /\ r.(studentId) <> id)
  /\ (if existsb (matches id) (records db)
      then out = msg_removed id
      else db' = db
           /\ getRecordCount db' = getRecordCount db
           /\ out = msg_not_found id)
  /\ Method.object_after (deleteStudentRecord id) new = new
  /\ Method.output (deleteStudentRecord id) new = msg_not_found id
  /\ Method.result (deleteStudentRecord id) db = tt.
Proof.
  unfold Method.object_after, Method.output, Method.result.
  rewrite deleteStudentRecord_eq. simpl.
  split; [reflexivity|]. split.
  - intros r. rewrite filter_In. unfold matches.
    rewrite negb_true_iff, Z.eqb_neq. reflexivity.
  - split; [|auto].
    destruct (existsb (matches id) (records db)) eqn:Hex; [reflexivity|].
    rewrite filter_keeps_all
      by (rewrite forallb_negb_existsb, Hex; reflexivity).
    destruct db; auto.
Qed.

(** C4. When a record matches, [updateStudentRecord] rewrites the name and
    score of the first match in storage order and nothing else: the id of
    that record, the records before it, the records after it (later
    records of the same id among them), the order and the count are as
    before. *)
Theorem updateStudentRecord_first_match_only
    (db : t) (id : Z) (name : string) (score : float)
    (l1 l2 : list StudentRecord) (r : StudentRecord) :
  records db = (l1 ++ r :: l2)%list ->
  (forall x, In x l1 -> x.(studentId) <> id) ->
  r.(studentId) = id ->
  let db' := Method.object_after (updateStudentRecord id name score) db in
  records db'
  = (l1 ++ {| studentId := id; fullName := name; academicScore := score |}
        :: l2)%list
  /\ Script.ids db' = Script.ids db
  /\ (forall i, i <> length l1 ->
                nth_error (records db') i = nth_error (records db) i)
  /\ length (records db') = length (records db)
  /\ getRecordCount db' = getRecordCount db
  /\ Method.output (updateStudentRecord id name score) db = msg_updated id.
Proof.
  intros Hdb Hl1 Hr db'.
  assert (Hno : existsb (matches id) l1 = false).
  { apply not_true_is_false. intros Hex.
    apply existsb_exists in Hex as (x & Hx & Hm).
    apply (Hl1 x Hx). apply Z.eqb_eq. exact Hm. }
  assert (Hm : matches id r = true) by (apply Z.eqb_eq; exact Hr).
  pose proof (updateStudentRecord_found id name score db l1 l2 r Hdb Hno Hm)
    as Heq.
  rewrite Hr in Heq.
  assert (Hrec : records db'
                 = (l1 ++ {| studentId := id; fullName := name;
                             academicScore := score |} :: l2)%list).
  { unfold db', Method.object_after. rewrite Heq. reflexivity. }
  assert (Hlen : length (records db') = length (records db)).
  { rewrite Hrec, Hdb, !length_app. reflexivity. }
  split; [exact Hrec|]. split.
  { apply updateStudentRecord_ids. }
  split.
  { intros i Hi. rewrite Hrec, Hdb.
    destruct (Nat.lt_ge_cases i (length l1)) as [Hlt|Hge].
    - rewrite !nth_error_app1 by assumption. reflexivity.
    - rewrite !nth_error_app2 by assumption.
      destruct (i - length l1)%nat eqn:Hd; [lia|]. reflexivity. }
  split; [exact Hlen|]. split.
  { unfold getRecordCount. rewrite Hlen. reflexivity. }
  unfold Method.output. rewrite Heq. reflexivity.
Qed.

Lemma updateStudentRecord_first_match_only_witness :
  let db' :=
    Method.object_after (updateStudentRecord 7 "Zoe" Samples.score_0)
      Samples.with_duplicate in
  records db'
  = [Samples.rec_b;
     {| studentId := 7; fullName := "Zoe";
        academicScore := Samples.score_0 |};
     Samples.rec_a']
  /\ getRecordCount db' = 3.
Proof.
  destruct
    (updateStudentRecord_first_match_only Samples.with_duplicate 7 "Zoe"
       Samples.score_0 [Samples.rec_b] [Samples.rec_a'] Samples.rec_a)
    as (H1 & _ & _ & _ & H2 & _).
  - reflexivity.
  - intros x [<-|[]]. simpl. lia.
  - reflexivity.
  - split; [exact H1|]. rewrite H2. reflexivity.
Defined.

End ById.

(** ** Running scripts *)

Section Scripts.
Import LegacyStudentDatabase Script.

Lemma object_after_bind {Obj A B : Type} (c : Method.t Obj A)
    (k : A -> Method.t Obj B) (o : Obj) :
  Method.object_after (Method.bind c k) o
  = Method.object_after (k (Method.result c o)) (Method.object_after c o).
Proof.
  unfold Method.object_after, Method.result, Method.bind.
  destruct (c o) as [[a o1] out1]. simpl.
  destruct (k a o1) as [[b o2] out2]. reflexivity.
Qed.

Lemma output_bind {Obj A B : Type} (c : Method.t Obj A)
    (k : A -> Method.t Obj B) (o : Obj) :
  Method.output (Method.bind c k) o
  = Method.output c o
      ++ Method.output (k (Method.result c o)) (Method.object_after c o).
Proof.
  unfold Method.object_after, Method.result, Method.output, Method.bind.
  destruct (c o) as [[a o1] out1]. simpl.
  destruct (k a o1) as [[b o2] out2]. reflexivity.
Qed.

Lemma store_after_nil (db : t) : store_after [] db = db.
Proof. reflexivity. Qed.

Lemma store_after_cons (o : op) (ops : list op) (db : t) :
  store_after (o :: ops) db
  = store_after ops (Method.object_after (step o) db).
Proof. unfold store_after, run. simpl. apply object_after_bind. Qed.

Lemma insert_of_stores (r : StudentRecord) (db : t) :
  records (Method.object_after (step (insert_of r)) db)
  = (records db ++ [r])%list.
Proof. destruct r. reflexivity. Qed.

(** A run of inserts appends the inserted records in order. *)
Lemma store_after_inserts (rs : list StudentRecord) (db : t) :
  records (store_after (map insert_of rs) db) = (records db ++ rs)%list.
Proof.
  revert db. induction rs as [|r rs IH]; intros db.
  - simpl. rewrite store_after_nil. symmetry. apply app_nil_r.
  - change (map insert_of (r :: rs)) with (insert_of r :: map insert_of rs).
    rewrite store_after_cons, IH, insert_of_stores, <- app_assoc.
    reflexivity.
Qed.

Lemma filter_matches_other (id id' : Z) (rs : list StudentRecord) :
  id' <> id ->
  filter (matches id) (filter (fun r => negb (matches id' r)) rs)
  = filter (matches id) rs.
Proof.
  intros Hne. induction rs as [|r rs IH]; simpl; [reflexivity|].
  destruct (matches id' r) eqn:H'; simpl.
  - destruct (matches id r) eqn:H; [|exact IH].
    unfold matches in H, H'. apply Z.eqb_eq in H, H'. congruence.
  - rewrite IH. reflexivity.
Qed.

(** Only a delete of [id] lowers the number of records with that id, and
    only an insert of [id] raises it. *)
Lemma count_id_step (id : Z) (o : op) (db : t) :
  deletes_id id o = false ->
  count_id id (Method.object_after (step o) db)
  = (count_id id db + (if inserts_id id o then 1 else 0))%nat.
Proof.
  intros Hdel. unfold count_id.
  destruct o as [id' name score|id'|id' name score].
  - unfold Method.object_after, step. rewrite insertStudentRecord_eq.
    cbn [fst snd records]. rewrite filter_app, length_app.
    cbn [filter inserts_id]. unfold matches at 2. cbn [studentId].
    destruct (id' =? id); reflexivity.
  - simpl in Hdel. apply Z.eqb_neq in Hdel.
    unfold Method.object_after, step. rewrite deleteStudentRecord_eq. simpl.
    rewrite filter_matches_other by assumption. lia.
  - unfold step. rewrite !count_matches_by_ids.
    pose proof (updateStudentRecord_ids id' name score db) as Hids.
    unfold ids in Hids. rewrite Hids. simpl. lia.
Qed.

Lemma count_id_run (id : Z) (ops : list op) (db : t) :
  forallb (fun o => negb (deletes_id id o)) ops = true ->
  count_id id (store_after ops db)
  = (count_id id db + length (filter (inserts_id id) ops))%nat.
Proof.
  revert db. induction ops as [|o ops IH]; intros db Hno.
  - rewrite store_after_nil. simpl. lia.
  - simpl in Hno. apply andb_true_iff in Hno as [Ho Hops].
    apply negb_true_iff in Ho.
    rewrite store_after_cons, (IH _ Hops), (count_id_step id o db Ho).
    simpl. destruct (inserts_id id o); simpl; lia.
Qed.

Lemma count_id_after_delete (id : Z) (db : t) :
  count_id id (Method.object_after (deleteStudentRecord id) db) = 0%nat.
Proof.
  unfold count_id, Method.object_after.
  rewrite deleteStudentRecord_eq. simpl.
  induction (records db) as [|r rs IH]; simpl; [reflexivity|].
  destruct (matches id r) eqn:Hr; simpl; [exact IH|].
  rewrite Hr. exact IH.
Qed.

(** A delete takes away as many records as have the id. *)
Lemma delete_size (id : Z) (db : t) :
  Z.of_nat (length (records (Method.object_after (deleteStudentRecord id) db)))
  = Z.of_nat (length (records db)) - Z.of_nat (count_id id db).
Proof.
  unfold Method.object_after, count_id. rewrite deleteStudentRecord_eq.
  cbn [fst snd records].
  pose proof (filter_split_length (matches id) (records db)). lia.
Qed.

(** One step from a store with pairwise distinct ids: the size goes up by
    one for an insert and down by one for a delete that reports
    success. *)
Lemma step_size (o : op) (db : t) :
  ids_distinct db ->
  Z.of_nat (length (records (Method.object_after (step o) db)))
  = Z.of_nat (length (records db))
    + (if is_insert o then 1 else 0)
    - (if reports_removed o db then 1 else 0).
Proof.
  intros Hnd. destruct o as [id name score|id|id name score].
  - unfold Method.object_after, step. rewrite insertStudentRecord_eq.
    cbn [fst snd records is_insert reports_removed].
    rewrite length_app. simpl length. lia.
  - unfold reports_removed, Method.object_after, Method.output, step.
    rewrite deleteStudentRecord_eq. simpl.
    pose proof (filter_split_length (matches id) (records db)) as Hsplit.
    destruct (existsb (matches id) (records db)) eqn:Hex.
    + rewrite String.eqb_refl.
      rewrite (distinct_ids_one_match id _ Hnd Hex) in Hsplit. lia.
    + rewrite msg_not_found_is_not_removed.
      rewrite filter_keeps_all
        by (rewrite forallb_negb_existsb, Hex; reflexivity).
      lia.
  - simpl.
    pose proof (updateStudentRecord_ids id name score db) as Hids.
    apply (f_equal (@length Z)) in Hids. unfold ids in Hids.
    rewrite !length_map in Hids. unfold step. lia.
Qed.

Lemma step_keeps_distinct (o : op) (db : t) :
  ids_distinct db ->
  match o with Insert id _ _ => has_id id db = false | _ => True end ->
  ids_distinct (Method.object_after (step o) db).
Proof.
  unfold ids_distinct. intros Hnd Hfresh.
  destruct o as [id name score|id|id name score].
  - unfold ids, Method.object_after, step. rewrite insertStudentRecord_eq.
    cbn [fst snd records]. rewrite map_app. cbn [map studentId].
    apply NoDup_rev in Hnd. rewrite <- (rev_involutive (_ ++ _)%list).
    apply NoDup_rev. rewrite rev_app_distr. simpl.
    constructor; [|exact Hnd].
    rewrite <- in_rev. intros Hin.
    apply existsb_matches_In in Hin. unfold has_id in Hfresh. congruence.
  - unfold ids, Method.object_after, step.
    rewrite deleteStudentRecord_eq. simpl.
    unfold matches.
    rewrite (map_filter_ids (fun i => negb (i =? id))).
    apply NoDup_filter. exact Hnd.
  - unfold step. rewrite updateStudentRecord_ids. exact Hnd.
Qed.

Lemma run_size (ops : list op) (db : t) :
  ids_distinct db ->
  inserts_fresh ops db = true ->
  Z.of_nat (length (records (store_after ops db)))
  = Z.of_nat (length (records db)) + inserts ops - successful_deletes ops db.
Proof.
  revert db. induction ops as [|o ops IH]; intros db Hnd Hfresh.
  - rewrite store_after_nil. unfold inserts. simpl. lia.
  - simpl in Hfresh. apply andb_true_iff in Hfresh as [Ho Hops].
    assert (Hnd' : ids_distinct (Method.object_after (step o) db)).
    { apply step_keeps_distinct; [exact Hnd|].
      destruct o; [|exact I|exact I].
      apply negb_true_iff. exact Ho. }
    rewrite store_after_cons, (IH _ Hnd' Hops), (step_size o db Hnd).
    unfold inserts. simpl successful_deletes. simpl filter.
    destruct (is_insert o); simpl length; lia.
Qed.

Lemma NoDup_map_injective {A B : Type} (f : A -> B) (l : list A) :
  (forall x y, f x = f y -> x = y) -> NoDup l -> NoDup (map f l).
Proof.
  intros Hinj Hnd. induction Hnd as [|x l Hnotin Hnd IH]; simpl.
  - constructor.
  - constructor; [|exact IH].
    intros Hin. apply in_map_iff in Hin as (y & Hy & Hiny).
    apply Hinj in Hy. subst. contradiction.
Qed.

Lemma inserts_of_inserts (rs : list StudentRecord) :
  inserts (map insert_of rs) = Z.of_nat (length rs).
Proof.
  unfold inserts. f_equal.
  induction rs as [|r rs IH]; simpl; [reflexivity|]. f_equal. exact IH.
Qed.

Lemma inserts_report_no_delete (rs : list StudentRecord) (db : t) :
  successful_deletes (map insert_of rs) db = 0.
Proof.
  revert db. induction rs as [|r rs IH]; intros db; simpl; [reflexivity|].
  apply IH.
Qed.

(** Inserting records whose ids are new and pairwise distinct is a run of
    fresh inserts. *)
Lemma distinct_inserts_fresh (rs : list StudentRecord) (db : t) :
  NoDup (ids db ++ map studentId rs)%list ->
  inserts_fresh (map insert_of rs) db = true.
Proof.
  revert db. induction rs as [|r rs IH]; intros db Hnd; [reflexivity|].
  cbn [map inserts_fresh insert_of].
  apply andb_true_iff. split.
  - apply negb_true_iff, not_true_is_false. intros Hhas.
    apply existsb_matches_In in Hhas.
    apply NoDup_remove_2 in Hnd. apply Hnd, in_or_app. left. exact Hhas.
  - apply IH. unfold ids.
    change (Insert (studentId r) (fullName r) (academicScore r))
      with (insert_of r).
    rewrite insert_of_stores, map_app, <- app_assoc. exact Hnd.
Qed.

Lemma beyond_int_value : Z.of_nat Samples.beyond_int = 2 ^ 31.
Proof.
  unfold Samples.beyond_int. apply Z2Nat.id. apply Z.pow_nonneg. lia.
Qed.

Lemma blanks_length (n : nat) : length (Samples.blanks n) = n.
Proof. unfold Samples.blanks. rewrite length_map. apply length_seq. Qed.

Lemma blanks_ids_distinct (n : nat) :
  NoDup (map studentId (Samples.blanks n)).
Proof.
  unfold Samples.blanks. rewrite map_map.
  apply NoDup_map_injective; [|apply seq_NoDup].
  intros x y Hxy. cbn [Samples.blank studentId] in Hxy.
  apply Nat2Z.inj. exact Hxy.
Qed.

Lemma blanks_ids_in_int (n : nat) (r : StudentRecord) :
  Z.of_nat n = 2 ^ 31 -> In r (Samples.blanks n) -> in_int r.(studentId).
Proof.
  intros Hn Hin. unfold Samples.blanks in Hin.
  apply in_map_iff in Hin as (i & <- & Hi).
  apply in_seq in Hi. cbn [Samples.blank studentId].
  unfold in_int, INT_MIN, INT_MAX. lia.
Qed.

Lemma count_after_inserts (rs : list StudentRecord) :
  getRecordCount (store_after (map insert_of rs) new)
  = int_of_size_t (Z.of_nat (length rs)).
Proof.
  unfold getRecordCount. rewrite store_after_inserts. reflexivity.
Qed.

End Scripts.

(** ** Inserting *)

Section Inserting.
Import LegacyStudentDatabase Script.

(** C5. [insertStudentRecord] always returns, having put the new record
    behind all the others and printed the "Added" line; the records that
    were there keep their places and contents, also those with the id of
    the new one, so the number of records with that id goes up by one.
    Records with that id stay until a delete of that id: no other
    operation lowers their number, and a delete of the id removes them
    all. *)
Theorem insertStudentRecord_appends_unconditionally
    (db : t) (id : Z) (name : string) (score : float) :
  let r := {| studentId := id; fullName := name; academicScore := score |} in
  let db' := Method.object_after (insertStudentRecord id name score) db in
  records db' = (records db ++ [r])%list
  /\ Method.output (insertStudentRecord id name score) db = msg_added id
  /\ Method.result (insertStudentRecord id name score) db = tt
  /\ (forall i x, nth_error (records db) i = Some x ->
                  nth_error (records db') i = Some x)
  /\ nth_error (records db') (length (records db)) = Some r
  /\ count_id id db' = S (count_id id db)
  /\ (forall ops,
        forallb (fun o => negb (deletes_id id o)) ops = true ->
        (count_id id db' <= count_id id (store_after ops db'))%nat)
  /\ (forall ops,
        count_id id
          (Method.object_after (deleteStudentRecord id) (store_after ops db'))
        = 0%nat).
Proof.
  intros r db'.
  assert (Hrec : records db' = (records db ++ [r])%list) by reflexivity.
  split; [exact Hrec|].
  split; [reflexivity|]. split; [reflexivity|]. split.
  { intros i x Hi. rewrite Hrec. rewrite nth_error_app1.
    - exact Hi.
    - apply nth_error_Some. congruence. }
  split.
  { rewrite Hrec, nth_error_app2, Nat.sub_diag by lia. reflexivity. }
  split.
  { unfold count_id. rewrite Hrec, filter_app, length_app.
    cbn [filter]. unfold matches at 2. subst r. cbn [studentId].
    rewrite Z.eqb_refl. simpl. lia. }
  split.
  { intros ops Hno. rewrite (count_id_run id ops db' Hno). lia. }
  intros ops. apply count_id_after_delete.
Qed.

Lemma insertStudentRecord_appends_unconditionally_witness :
  let db' :=
    Method.object_after (insertStudentRecord 7 "Ann III" Samples.score_0)
      Samples.with_duplicate in
  records db'
  = [Samples.rec_b; Samples.rec_a; Samples.rec_a';
     {| studentId := 7; fullName := "Ann III";
        academicScore := Samples.score_0 |}]
  /\ (count_id 7 db'
      <= count_id 7
           (store_after [Update 7 "Ann IV" Samples.score_0; Delete 9] db'))%nat.
Proof.
  destruct
    (insertStudentRecord_appends_unconditionally Samples.with_duplicate 7
       "Ann III" Samples.score_0)
    as (H1 & _ & _ & _ & _ & _ & H2 & _).
  split; [exact H1|].
  apply H2. reflexivity.
Defined.

(** C6, as stated, fails: 2^31 inserts with the ids 0, 1, ..., 2^31 - 1,
    all distinct and all in the range of [int], leave a store whose count
    is reported as -2^31. *)
Lemma count_after_distinct_inserts_wraps :
  let rs := Samples.blanks Samples.beyond_int in
  NoDup (map studentId rs)
  /\ (forall r, In r rs -> in_int r.(studentId))
  /\ getRecordCount (store_after (map insert_of rs) new) = - 2 ^ 31
  /\ getRecordCount (store_after (map insert_of rs) new)
     <> Z.of_nat (length rs).
Proof.
  intros rs.
  assert (Hcount :
    getRecordCount (store_after (map insert_of rs) new) = - 2 ^ 31).
  { rewrite count_after_inserts. subst rs.
    rewrite blanks_length, beyond_int_value. reflexivity. }
  split; [exact (blanks_ids_distinct Samples.beyond_int)|].
  split.
  { intros r. exact (blanks_ids_in_int Samples.beyond_int r beyond_int_value). }
  split; [exact Hcount|].
  rewrite Hcount. subst rs. rewrite blanks_length, beyond_int_value. lia.
Qed.

(** C6, amended.  For every sequence of inserts with pairwise distinct
    ids, run on the empty store, the count after the first [k] of them is
    [k], as long as [k] is at most [INT_MAX]. *)
Theorem count_after_distinct_inserts (rs : list StudentRecord) (k : nat) :
  NoDup (map studentId rs) ->
  (k <= length rs)%nat ->
  Z.of_nat k <= INT_MAX ->
  getRecordCount (store_after (map insert_of (firstn k rs)) new)
  = Z.of_nat k.
Proof.
  intros _ Hk Hmax.
  assert (Hlen :
    length (records (store_after (map insert_of (firstn k rs)) new)) = k).
  { rewrite store_after_inserts. change (records new) with (@nil StudentRecord).
    rewrite app_nil_l. apply firstn_length_le. exact Hk. }
  rewrite getRecordCount_small; rewrite Hlen; [reflexivity|exact Hmax].
Qed.

Lemma count_after_distinct_inserts_witness :
  getRecordCount
    (store_after
       (map insert_of (firstn 2 [Samples.rec_b; Samples.rec_a])) new)
  = 2.
Proof.
  apply (count_after_distinct_inserts [Samples.rec_b; Samples.rec_a] 2).
  - repeat constructor; simpl; intuition discriminate.
  - simpl. lia.
  - unfold INT_MAX. lia.
Defined.

End Inserting.

(** ** The count of the store *)

Section Counting.
Import LegacyStudentDatabase Script.

(** C2, as stated, fails: after two inserts of the id 1 and one delete of
    it, which reports success, the store is empty, while the inserts
    minus the successful deletes make 1. *)
Lemma count_is_not_inserts_minus_deletes :
  let ops := Samples.insert_twice_delete_once in
  inserts ops = 2
  /\ successful_deletes ops new = 1
  /\ getRecordCount (store_after ops new) = 0
  /\ getRecordCount (store_after ops new)
     <> inserts ops - successful_deletes ops new.
Proof. vm_compute. repeat split; discriminate. Qed.

(** The size has to fit in [int] as well: 2^31 fresh inserts and no
    delete give the count -2^31. *)
Lemma count_of_fresh_inserts_wraps :
  let ops := map insert_of (Samples.blanks Samples.beyond_int) in
  inserts_fresh ops new = true
  /\ inserts ops - successful_deletes ops new = 2 ^ 31
  /\ getRecordCount (store_after ops new) = - 2 ^ 31.
Proof.
  cbv zeta. split.
  { apply distinct_inserts_fresh.
    exact (blanks_ids_distinct Samples.beyond_int). }
  rewrite inserts_of_inserts, inserts_report_no_delete, count_after_inserts.
  rewrite blanks_length, beyond_int_value. split; reflexivity.
Qed.

(** C2, amended.  Run any script on the empty store in which every insert
    uses an id that no stored record has at that moment, so that the
    stored ids stay pairwise distinct.  Then, as long as the size is at
    most [INT_MAX], the count is the number of inserts minus the number of
    deletes that reported success.  Every script that ends at a given
    point is covered, hence every point of a run. *)
Theorem count_is_inserts_minus_successful_deletes (ops : list op) :
  inserts_fresh ops new = true ->
  Z.of_nat (length (records (store_after ops new))) <= INT_MAX ->
  getRecordCount (store_after ops new)
  = inserts ops - successful_deletes ops new.
Proof.
  intros Hfresh Hmax.
  rewrite (getRecordCount_small _ Hmax).
  rewrite (run_size ops new); [simpl; lia| |exact Hfresh].
  unfold ids_distinct, ids. simpl. constructor.
Qed.

Lemma count_is_inserts_minus_successful_deletes_witness :
  getRecordCount
    (store_after
       [Insert 1 "A" Samples.score_0; Delete 5; Insert 2 "B" Samples.score_0;
        Delete 1; Update 2 "C" Samples.score_0; Insert 1 "D" Samples.score_0]
       new)
  = 3 - 1.
Proof.
  apply
    (count_is_inserts_minus_successful_deletes
       [Insert 1 "A" Samples.score_0; Delete 5; Insert 2 "B" Samples.score_0;
        Delete 1; Update 2 "C" Samples.score_0; Insert 1 "D" Samples.score_0]).
  - reflexivity.
  - vm_compute. discriminate.
Defined.

(** C10, as stated, fails: a store of 2^31 records lists 2^31 strings and
    reports the count -2^31. *)
Lemma listing_longer_than_count :
  let db := {| records := Samples.blanks Samples.beyond_int |} in
  Z.of_nat (length (fetchAllRecords db)) = 2 ^ 31
  /\ getRecordCount db = - 2 ^ 31
  /\ Z.of_nat (length (fetchAllRecords db)) <> getRecordCount db.
Proof.
  intros db.
  assert (Hlist : Z.of_nat (length (fetchAllRecords db)) = 2 ^ 31).
  { rewrite fetchAllRecords_length. subst db. cbn [records].
    rewrite blanks_length. exact beyond_int_value. }
  assert (Hcount : getRecordCount db = - 2 ^ 31).
  { unfold getRecordCount. subst db. cbn [records].
    rewrite blanks_length, beyond_int_value. reflexivity. }
  split; [exact Hlist|]. split; [exact Hcount|].
  rewrite Hlist, Hcount. lia.
Qed.

(** C10, amended.  For every store the listing has exactly one string per
    stored record.  For a store of at most [INT_MAX] records the length of
    the listing is the count; the same holds for [getAllStudentsInfo] and
    [getTotalStudents] of an adapter over that store. *)
Theorem listing_length_is_count (db : t) :
  length (fetchAllRecords db) = length (records db)
  /\ length
       (ModernStudentSystem.getAllStudentsInfo
          {| StudentSystemAdapter.legacySystem := db |})
     = length (records db)
  /\ (Z.of_nat (length (records db)) <= INT_MAX ->
      Z.of_nat (length (fetchAllRecords db)) = getRecordCount db
      /\ Z.of_nat
           (length
              (ModernStudentSystem.getAllStudentsInfo
                 {| StudentSystemAdapter.legacySystem := db |}))
         = ModernStudentSystem.getTotalStudents
             {| StudentSystemAdapter.legacySystem := db |}).
Proof.
  split; [apply fetchAllRecords_length|].
  split; [apply fetchAllRecords_length|].
  intros Hmax.
  assert (H : Z.of_nat (length (fetchAllRecords db)) = getRecordCount db).
  { rewrite fetchAllRecords_length. symmetry.
    apply getRecordCount_small. exact Hmax. }
  split; exact H.
Qed.

Lemma listing_length_is_count_witness :
  length (fetchAllRecords Samples.with_duplicate) = 3%nat
  /\ Z.of_nat (length (fetchAllRecords Samples.with_duplicate))
     = getRecordCount Samples.with_duplicate.
Proof.
  destruct (listing_length_is_count Samples.with_duplicate)
    as (Hone & _ & Hcount).
  split; [exact Hone|].
  apply Hcount. vm_compute. discriminate.
Defined.

End Counting.

(** ** The listing *)

Section Listing.
Import LegacyStudentDatabase.

(** C8. [fetchAllRecords] returns one string per record, in storage
    order, each made of the id in decimal, the name and the score as
    [std::to_string] prints a float. *)
Theorem fetchAllRecords_formats_each_record (db : t) :
  fetchAllRecords db
  = map (fun record =>
           "ID: " ++ to_string_int record.(studentId)
             ++ ", Name: " ++ record.(fullName)
             ++ ", Score: " ++ to_string_float record.(academicScore))
      (records db)
  /\ length (fetchAllRecords db) = length (records db)
  /\ (forall i,
        nth_error (fetchAllRecords db) i
        = option_map
            (fun record =>
               "ID: " ++ to_string_int record.(studentId)
                 ++ ", Name: " ++ record.(fullName)
                 ++ ", Score: " ++ to_string_float record.(academicScore))
            (nth_error (records db) i)).
Proof.
  split; [apply fetchAllRecords_map|].
  split; [apply fetchAllRecords_length|].
  intros i. rewrite fetchAllRecords_map. apply nth_error_map.
Qed.

Example fetchAllRecords_sample :
  fetchAllRecords
    {| records :=
         [{| studentId := -12; fullName := "Eve";
             academicScore := static_cast_float (double_literal 25 1) |};
          {| studentId := 0; fullName := "";
             academicScore := static_cast_float (double_literal (-1) 7) |}] |}
  = ["ID: -12, Name: Eve, Score: 2.500000";
     "ID: 0, Name: , Score: -0.000000"].
Proof. vm_compute. reflexivity. Qed.

End Listing.

(** ** The adapter *)

Section Adapter.
Import StudentSystemAdapter.

Lemma on_legacy_object_after {A : Type}
    (c : Method.t LegacyStudentDatabase.t A) (a : t) :
  Method.object_after (on_legacy c) a
  = {| legacySystem := Method.object_after c (legacySystem a) |}.
Proof.
  unfold Method.object_after, on_legacy.
  destruct (c (legacySystem a)) as [[x db] out]. reflexivity.
Qed.

Lemma on_legacy_output {A : Type}
    (c : Method.t LegacyStudentDatabase.t A) (a : t) :
  Method.output (on_legacy c) a = Method.output c (legacySystem a).
Proof.
  unfold Method.output, on_legacy.
  destruct (c (legacySystem a)) as [[x db] out]. reflexivity.
Qed.

(** Each call through the interface is the translated store operation on
    the adapter's store. *)
Lemma invoke_translates (c : Calls.call) :
  Calls.invoke c = on_legacy (Script.step (Shim.translate c)).
Proof. destruct c; reflexivity. Qed.

(** C7. The adapter is a translation shim.  Any sequence of [addStudent],
    [removeStudent] and [updateStudentDetails] calls, made through the
    interface on any adapter, leaves in the adapter's store exactly what
    the translated store operations (scores narrowed to [float]) leave
    there, and prints the same text; [getAllStudentsInfo] and
    [getTotalStudents] are the listing and the count of that store as
    they are. *)
Theorem adapter_is_translation_shim (cs : list Calls.call) (a : t) :
  let a' := Method.object_after (Calls.run cs) a in
  let store' := Script.store_after (map Shim.translate cs) (legacySystem a) in
  legacySystem a' = store'
  /\ Method.output (Calls.run cs) a
     = Method.output (Script.run (map Shim.translate cs)) (legacySystem a)
  /\ ModernStudentSystem.getAllStudentsInfo a' = Shim.listAll store'
  /\ ModernStudentSystem.getTotalStudents a' = Shim.total store'.
Proof.
  cbv zeta.
  assert (H :
    legacySystem (Method.object_after (Calls.run cs) a)
    = Script.store_after (map Shim.translate cs) (legacySystem a)
    /\ Method.output (Calls.run cs) a
       = Method.output (Script.run (map Shim.translate cs)) (legacySystem a)).
  { revert a. induction cs as [|c cs IH]; intros a.
    - split; reflexivity.
    - change (map Shim.translate (c :: cs))
        with (Shim.translate c :: map Shim.translate cs).
      rewrite store_after_cons.
      unfold Calls.run, Script.run. cbn [Method.for_each].
      rewrite object_after_bind, !output_bind.
      fold (Calls.run (T := t) cs) (Script.run (map Shim.translate cs)).
      rewrite invoke_translates, on_legacy_object_after, on_legacy_output.
      destruct (IH {| legacySystem :=
                        Method.object_after (Script.step (Shim.translate c))
                          (legacySystem a) |}) as [IH1 IH2].
      cbn [legacySystem] in IH1, IH2.
      split; [exact IH1|]. rewrite IH2. reflexivity. }
  destruct H as [Hstore Hout].
  split; [exact Hstore|]. split; [exact Hout|].
  cbn [ModernStudentSystem.getAllStudentsInfo
         ModernStudentSystem.getTotalStudents
         StudentSystemAdapter_ModernStudentSystem].
  unfold getAllStudentsInfo, getTotalStudents, Shim.listAll, Shim.total.
  rewrite Hstore. split; reflexivity.
Qed.

(** C9. Narrowing loses precision.  After [addStudent(1, "A",
    3.14159265358979)] on a fresh adapter the stored score is the float
    13176795 * 2^-22, which is not the double that was passed (it is
    larger), and the listing shows the text of that float.  The text
    itself can differ from the text of the double passed: 16777217.0 is
    listed as 16777216.000000. *)
Theorem score_narrowing_is_lossy :
  let gpa := double_literal 314159265358979 14 in
  let a := Method.object_after (ModernStudentSystem.addStudent 1 "A" gpa) new in
  let gpa' := double_literal 16777217 0 in
  let a' :=
    Method.object_after (ModernStudentSystem.updateStudentDetails 1 "A" gpa')
      a in
  is_double gpa = true
  /\ map LegacyStudentDatabase.academicScore
       (LegacyStudentDatabase.records (legacySystem a))
     = [static_cast_float gpa]
  /\ static_cast_float gpa = S754_finite false 13176795 (-22)
  /\ is_float (static_cast_float gpa) = true
  /\ double_of_float (static_cast_float gpa) <> gpa
  /\ SFcompare (double_of_float (static_cast_float gpa)) gpa = Some Gt
  /\ ModernStudentSystem.getAllStudentsInfo a
     = ["ID: 1, Name: A, Score: " ++ to_string_float (static_cast_float gpa)]
  /\ ModernStudentSystem.getAllStudentsInfo a
     = ["ID: 1, Name: A, Score: 3.141593"]
  /\ ModernStudentSystem.getAllStudentsInfo a'
     = ["ID: 1, Name: A, Score: 16777216.000000"]
  /\ to_string_float gpa' = "16777217.000000"
  /\ double_of_float (static_cast_float gpa') <> gpa'.
Proof. vm_compute. repeat split; (reflexivity || discriminate). Qed.

End Adapter.

(** ** Updating an id that is, or is not, in the store *)

Section Updating.
Import LegacyStudentDatabase Script.

Lemma msg_not_found_is_not_updated (id : Z) :
  msg_not_found id <> msg_updated id.
Proof. unfold msg_not_found, msg_updated. simpl. discriminate. Qed.

Lemma no_match_in_tail (id : Z) (l1 l2 : list StudentRecord)
    (r : StudentRecord) :
  NoDup (map studentId (l1 ++ r :: l2)%list) ->
  matches id r = true ->
  existsb (matches id) l2 = false.
Proof.
  intros Hnd Hr. apply not_true_is_false. intros Hex.
  apply existsb_matches_In in Hex.
  rewrite map_app in Hnd. cbn [map] in Hnd.
  apply NoDup_remove_2 in Hnd. apply Hnd, in_or_app. right.
  unfold matches in Hr. apply Z.eqb_eq in Hr. rewrite Hr. exact Hex.
Qed.

(** X1. [updateStudentRecord] with an id that no stored record has is a
    no-op on the store: the store, its listing and its count are as before,
    and the "not found" line is printed. *)
Theorem updateStudentRecord_absent_id_is_noop
    (db : t) (id : Z) (name : string) (score : float) :
  has_id id db = false ->
  Method.object_after (updateStudentRecord id name score) db = db
  /\ fetchAllRecords
       (Method.object_after (updateStudentRecord id name score) db)
     = fetchAllRecords db
  /\ getRecordCount
       (Method.object_after (updateStudentRecord id name score) db)
     = getRecordCount db
  /\ Method.output (updateStudentRecord id name score) db = msg_not_found id.
Proof.
  intros Hno. unfold Method.object_after, Method.output.
  rewrite (updateStudentRecord_not_found id name score db Hno).
  repeat split; reflexivity.
Qed.

Lemma updateStudentRecord_absent_id_is_noop_witness :
  Method.object_after (updateStudentRecord 8 "Zoe" Samples.score_0)
    Samples.with_duplicate
  = Samples.with_duplicate
  /\ Method.output (updateStudentRecord 8 "Zoe" Samples.score_0)
       Samples.with_duplicate
     = msg_not_found 8.
Proof.
  destruct
    (updateStudentRecord_absent_id_is_noop Samples.with_duplicate 8 "Zoe"
       Samples.score_0) as (H1 & _ & _ & H2).
  - reflexivity.
  - split; [exact H1 | exact H2].
Defined.

(** X2. On every store and for every id, [updateStudentRecord] leaves the
    sequence of ids and the count as they are, and it prints the "Updated"
    line exactly when some stored record has the id. *)
Theorem updateStudentRecord_keeps_ids_and_count
    (db : t) (id : Z) (name : string) (score : float) :
  ids (Method.object_after (updateStudentRecord id name score) db) = ids db
  /\ length (records (Method.object_after (updateStudentRecord id name score) db))
     = length (records db)
  /\ getRecordCount (Method.object_after (updateStudentRecord id name score) db)
     = getRecordCount db
  /\ Method.output (updateStudentRecord id name score) db
     = (if has_id id db then msg_updated id else msg_not_found id)
  /\ (Method.output (updateStudentRecord id name score) db = msg_updated id
      <-> has_id id db = true).
Proof.
  pose proof (updateStudentRecord_ids id name score db) as Hids.
  assert (Hlen :
    length (records (Method.object_after (updateStudentRecord id name score) db))
    = length (records db)).
  { apply (f_equal (@length Z)) in Hids. unfold ids in Hids.
    rewrite !length_map in Hids. exact Hids. }
  assert (Hout :
    Method.output (updateStudentRecord id name score) db
    = (if has_id id db then msg_updated id else msg_not_found id)).
  { unfold Method.output, has_id.
    destruct (existsb (matches id) (records db)) eqn:Hex.
    - destruct (first_match_split id _ Hex) as (l1 & r & l2 & Hdb & Hl1 & Hr).
      rewrite (updateStudentRecord_found id name score db l1 l2 r Hdb Hl1 Hr).
      reflexivity.
    - rewrite (updateStudentRecord_not_found id name score db Hex).
      reflexivity. }
  split; [exact Hids|]. split; [exact Hlen|]. split.
  { unfold getRecordCount. rewrite Hlen. reflexivity. }
  split; [exact Hout|].
  rewrite Hout. destruct (has_id id db); split; intros H; try reflexivity.
  - exfalso. exact (msg_not_found_is_not_updated id H).
  - discriminate.
Qed.

(** X3. Updating twice with the same values is the same as updating once:
    the second call finds the record the first one rewrote and leaves the
    store as it is. *)
Theorem updateStudentRecord_idempotent
    (db : t) (id : Z) (name : string) (score : float) :
  let db1 := Method.object_after (updateStudentRecord id name score) db in
  Method.object_after (updateStudentRecord id name score) db1 = db1
  /\ Method.output (updateStudentRecord id name score) db1
     = Method.output (updateStudentRecord id name score) db.
Proof.
  cbv zeta. unfold Method.object_after, Method.output.
  destruct (existsb (matches id) (records db)) eqn:Hex.
  - destruct (first_match_split id _ Hex) as (l1 & r & l2 & Hdb & Hl1 & Hr).
    rewrite (updateStudentRecord_found id name score db l1 l2 r Hdb Hl1 Hr).
    cbn [fst snd].
    rewrite (updateStudentRecord_found id name score
               {| records :=
                    (l1 ++ {| studentId := studentId r; fullName := name;
                              academicScore := score |} :: l2)%list |}
               l1 l2
               {| studentId := studentId r; fullName := name;
                  academicScore := score |} eq_refl Hl1 Hr).
    split; reflexivity.
  - rewrite (updateStudentRecord_not_found id name score db Hex).
    cbn [fst snd].
    rewrite (updateStudentRecord_not_found id name score db Hex).
    split; reflexivity.
Qed.

(** X4. In a store with pairwise distinct ids, after an update of an id
    that is present, every record with that id carries the new name and
    score, and every record with another id is a record of the store
    before. *)
Theorem updateStudentRecord_distinct_ids
    (db : t) (id : Z) (name : string) (score : float) :
  ids_distinct db ->
  has_id id db = true ->
  forall r,
    In r (records (Method.object_after (updateStudentRecord id name score) db)) ->
    (r.(studentId) = id -> r.(fullName) = name /\ r.(academicScore) = score)
    /\ (r.(studentId) <> id -> In r (records db)).
Proof.
  unfold ids_distinct, ids, has_id. intros Hnd Hex r Hin.
  destruct (first_match_split id _ Hex) as (l1 & r0 & l2 & Hdb & Hl1 & Hr0).
  unfold Method.object_after in Hin.
  rewrite (updateStudentRecord_found id name score db l1 l2 r0 Hdb Hl1 Hr0)
    in Hin.
  cbn [fst snd records] in Hin.
  rewrite Hdb in Hnd.
  pose proof (no_match_in_tail id l1 l2 r0 Hnd Hr0) as Hl2.
  assert (Hother : forall l, existsb (matches id) l = false ->
                             In r l -> studentId r <> id).
  { intros l Hl Hrl Heq.
    assert (existsb (matches id) l = true); [|congruence].
    apply existsb_exists. exists r. split; [exact Hrl|].
    apply Z.eqb_eq. exact Heq. }
  apply in_app_or in Hin as [Hin|[Hin|Hin]].
  - split.
    + intros Heq. exfalso. exact (Hother l1 Hl1 Hin Heq).
    + intros _. rewrite Hdb. apply in_or_app. left. exact Hin.
  - subst r. cbn [studentId fullName academicScore]. split.
    + intros _. split; reflexivity.
    + intros Hne. exfalso. apply Hne.
      unfold matches in Hr0. apply Z.eqb_eq. exact Hr0.
  - split.
    + intros Heq. exfalso. exact (Hother l2 Hl2 Hin Heq).
    + intros _. rewrite Hdb. apply in_or_app. right. right. exact Hin.
Qed.

Lemma updateStudentRecord_distinct_ids_witness :
  let r := {| studentId := 7; fullName := "Zoe";
              academicScore := Samples.score_0 |} in
  In r (records
          (Method.object_after (updateStudentRecord 7 "Zoe" Samples.score_0)
             Samples.distinct_store))
  /\ r.(fullName) = "Zoe"
  /\ r.(academicScore) = Samples.score_0.
Proof.
  cbv zeta.
  assert (Hin :
    In {| studentId := 7; fullName := "Zoe";
          academicScore := Samples.score_0 |}
      (records
         (Method.object_after (updateStudentRecord 7 "Zoe" Samples.score_0)
            Samples.distinct_store))).
  { right. left. reflexivity. }
  split; [exact Hin|].
  destruct
    (updateStudentRecord_distinct_ids Samples.distinct_store 7 "Zoe"
       Samples.score_0) with (3 := Hin) as [H _].
  - unfold ids_distinct. repeat constructor; simpl; intuition discriminate.
  - reflexivity.
  - apply H. reflexivity.
Defined.

End Updating.

(** ** How deleting composes with itself and with the other operations *)

Section Composing.
Import LegacyStudentDatabase Script.

Lemma store_eq (a b : t) : records a = records b -> a = b.
Proof. destruct a, b. simpl. intros ->. reflexivity. Qed.

Lemma records_after_delete (id : Z) (db : t) :
  records (Method.object_after (deleteStudentRecord id) db)
  = filter (fun r => negb (matches id r)) (records db).
Proof.
  unfold Method.object_after. rewrite deleteStudentRecord_eq. reflexivity.
Qed.

Lemma output_of_delete (id : Z) (db : t) :
  Method.output (deleteStudentRecord id) db
  = (if has_id id db then msg_removed id else msg_not_found id).
Proof.
  unfold Method.output. rewrite deleteStudentRecord_eq. reflexivity.
Qed.

Lemma records_after_insert (id : Z) (name : string) (score : float)
    (db : t) :
  records (Method.object_after (insertStudentRecord id name score) db)
  = (records db
       ++ [{| studentId := id; fullName := name; academicScore := score |}])%list.
Proof. reflexivity. Qed.

Lemma no_match_after_filter (id : Z) (rs : list StudentRecord) :
  existsb (matches id) (filter (fun r => negb (matches id r)) rs) = false.
Proof.
  induction rs as [|r rs IH]; simpl; [reflexivity|].
  destruct (matches id r) eqn:Hr; simpl; [exact IH|].
  rewrite Hr. exact IH.
Qed.

Lemma filter_swap {A : Type} (f g : A -> bool) (l : list A) :
  filter f (filter g l) = filter g (filter f l).
Proof.
  induction l as [|x l IH]; simpl; [reflexivity|].
  destruct (f x) eqn:Hf, (g x) eqn:Hg; simpl;
    rewrite ?Hf, ?Hg, IH; reflexivity.
Qed.

Lemma has_id_after_update (id id' : Z) (name : string) (score : float)
    (db : t) :
  has_id id (Method.object_after (updateStudentRecord id' name score) db)
  = has_id id db.
Proof.
  pose proof (updateStudentRecord_ids id' name score db) as Hids.
  unfold has_id, ids in *.
  destruct (existsb (matches id) (records db)) eqn:Hex.
  - apply existsb_matches_In. rewrite Hids.
    apply existsb_matches_In. exact Hex.
  - apply not_true_is_false. intros H.
    apply existsb_matches_In in H. rewrite Hids in H.
    apply existsb_matches_In in H. congruence.
Qed.

(** X5. Deleting an id twice is the same as deleting it once: after a
    delete no stored record has the id, so the second delete leaves the
    store as it is and prints "not found". *)
Theorem deleteStudentRecord_idempotent (db : t) (id : Z) :
  let db1 := Method.object_after (deleteStudentRecord id) db in
  has_id id db1 = false
  /\ Method.object_after (deleteStudentRecord id) db1 = db1
  /\ Method.output (deleteStudentRecord id) db1 = msg_not_found id.
Proof.
  cbv zeta.
  assert (Hno : has_id id (Method.object_after (deleteStudentRecord id) db)
                = false).
  { unfold has_id. rewrite records_after_delete. apply no_match_after_filter. }
  split; [exact Hno|]. split.
  - apply store_eq. rewrite records_after_delete.
    apply filter_keeps_all. rewrite forallb_negb_existsb.
    unfold has_id in Hno. rewrite Hno. reflexivity.
  - rewrite output_of_delete, Hno. reflexivity.
Qed.

(** X6. Deletes of two ids commute: the store left by deleting one id and
    then the other does not depend on the order. *)
Theorem deleteStudentRecord_commutes (db : t) (id1 id2 : Z) :
  Method.object_after (deleteStudentRecord id1)
    (Method.object_after (deleteStudentRecord id2) db)
  = Method.object_after (deleteStudentRecord id2)
      (Method.object_after (deleteStudentRecord id1) db).
Proof.
  apply store_eq. rewrite !records_after_delete. apply filter_swap.
Qed.

(** X7. An insert followed by a delete of the same id leaves what the
    delete alone would have left, and that delete always prints "Removed".
    When no record had the id before, the store is back to what it was. *)
Theorem insert_then_delete (db : t) (id : Z) (name : string) (score : float) :
  let db1 := Method.object_after (insertStudentRecord id name score) db in
  Method.object_after (deleteStudentRecord id) db1
  = Method.object_after (deleteStudentRecord id) db
  /\ Method.output (deleteStudentRecord id) db1 = msg_removed id
  /\ (has_id id db = false ->
      Method.object_after (deleteStudentRecord id) db1 = db).
Proof.
  cbv zeta.
  assert (Heq :
    Method.object_after (deleteStudentRecord id)
      (Method.object_after (insertStudentRecord id name score) db)
    = Method.object_after (deleteStudentRecord id) db).
  { apply store_eq. rewrite !records_after_delete, records_after_insert.
    rewrite filter_app. cbn [filter]. unfold matches at 2. cbn [studentId].
    rewrite Z.eqb_refl. cbn [negb]. apply app_nil_r. }
  split; [exact Heq|]. split.
  - rewrite output_of_delete. unfold has_id.
    rewrite records_after_insert, existsb_app. cbn [existsb].
    unfold matches at 2. cbn [studentId]. rewrite Z.eqb_refl, orb_true_r.
    reflexivity.
  - intros Hno. rewrite Heq. apply store_eq. rewrite records_after_delete.
    apply filter_keeps_all. rewrite forallb_negb_existsb.
    unfold has_id in Hno. rewrite Hno. reflexivity.
Qed.

Lemma insert_then_delete_witness :
  Method.object_after (deleteStudentRecord 8)
    (Method.object_after (insertStudentRecord 8 "Zoe" Samples.score_0)
       Samples.with_duplicate)
  = Samples.with_duplicate.
Proof.
  destruct (insert_then_delete Samples.with_duplicate 8 "Zoe" Samples.score_0)
    as (_ & _ & H).
  apply H. reflexivity.
Defined.

(** X8. An update followed by a delete of the same id leaves what the
    delete alone would have left and prints the same line: the update is
    lost with the record. *)
Theorem update_then_delete (db : t) (id : Z) (name : string) (score : float) :
  let db1 := Method.object_after (updateStudentRecord id name score) db in
  Method.object_after (deleteStudentRecord id) db1
  = Method.object_after (deleteStudentRecord id) db
  /\ Method.output (deleteStudentRecord id) db1
     = Method.output (deleteStudentRecord id) db.
Proof.
  cbv zeta. split.
  - apply store_eq. rewrite !records_after_delete.
    unfold Method.object_after.
    destruct (existsb (matches id) (records db)) eqn:Hex.
    + destruct (first_match_split id _ Hex) as (l1 & r & l2 & Hdb & Hl1 & Hr).
      rewrite (updateStudentRecord_found id name score db l1 l2 r Hdb Hl1 Hr).
      cbn [fst snd records]. rewrite Hdb, !filter_app. cbn [filter].
      replace (matches id {| studentId := studentId r; fullName := name;
                             academicScore := score |})
        with true by (symmetry; exact Hr).
      rewrite Hr. reflexivity.
    + rewrite (updateStudentRecord_not_found id name score db Hex).
      reflexivity.
  - rewrite !output_of_delete, has_id_after_update. reflexivity.
Qed.

(** X9. When no stored record has the id, an insert followed by an update
    of that id leaves the store an insert of the updated values would have
    left: the update finds the record just inserted. *)
Theorem insert_then_update_fresh
    (db : t) (id : Z) (name1 name2 : string) (score1 score2 : float) :
  has_id id db = false ->
  Method.object_after (updateStudentRecord id name2 score2)
    (Method.object_after (insertStudentRecord id name1 score1) db)
  = Method.object_after (insertStudentRecord id name2 score2) db
  /\ Method.output (updateStudentRecord id name2 score2)
       (Method.object_after (insertStudentRecord id name1 score1) db)
     = msg_updated id.
Proof.
  intros Hno. unfold Method.object_after at 1, Method.output.
  rewrite (updateStudentRecord_found id name2 score2
             (Method.object_after (insertStudentRecord id name1 score1) db)
             (records db) []
             {| studentId := id; fullName := name1; academicScore := score1 |}
             eq_refl Hno (Z.eqb_refl id)).
  split; reflexivity.
Qed.

Lemma insert_then_update_fresh_witness :
  Method.object_after (updateStudentRecord 8 "Zoe II" Samples.score_0)
    (Method.object_after (insertStudentRecord 8 "Zoe" Samples.score_0)
       Samples.with_duplicate)
  = Method.object_after (insertStudentRecord 8 "Zoe II" Samples.score_0)
      Samples.with_duplicate.
Proof.
  apply (insert_then_update_fresh Samples.with_duplicate 8 "Zoe" "Zoe II"
           Samples.score_0 Samples.score_0).
  reflexivity.
Defined.

(** X10. When some stored record already has the id, an insert of that id
    and an update of it commute: the update rewrites the older record and
    the inserted record stays last with the values it was inserted with. *)
Theorem insert_then_update_present
    (db : t) (id : Z) (name1 name2 : string) (score1 score2 : float) :
  has_id id db = true ->
  Method.object_after (updateStudentRecord id name2 score2)
    (Method.object_after (insertStudentRecord id name1 score1) db)
  = Method.object_after (insertStudentRecord id name1 score1)
      (Method.object_after (updateStudentRecord id name2 score2) db).
Proof.
  intros Hex. unfold has_id in Hex.
  destruct (first_match_split id _ Hex) as (l1 & r & l2 & Hdb & Hl1 & Hr).
  apply store_eq. rewrite records_after_insert.
  unfold Method.object_after.
  rewrite (updateStudentRecord_found id name2 score2 db l1 l2 r Hdb Hl1 Hr).
  rewrite (updateStudentRecord_found id name2 score2 _ l1
             (l2 ++ [{| studentId := id; fullName := name1;
                        academicScore := score1 |}])%list r);
    [| |exact Hl1|exact Hr].
  - cbn [fst snd records]. rewrite <- app_assoc. reflexivity.
  - rewrite insertStudentRecord_eq. cbn [fst snd records].
    rewrite Hdb, <- app_assoc. reflexivity.
Qed.

Lemma insert_then_update_present_witness :
  Method.object_after (updateStudentRecord 7 "Zoe" Samples.score_0)
    (Method.object_after (insertStudentRecord 7 "Ann III" Samples.score_0)
       Samples.with_duplicate)
  = Method.object_after (insertStudentRecord 7 "Ann III" Samples.score_0)
      (Method.object_after (updateStudentRecord 7 "Zoe" Samples.score_0)
         Samples.with_duplicate).
Proof.
  apply (insert_then_update_present Samples.with_duplicate 7 "Ann III" "Zoe"
           Samples.score_0 Samples.score_0).
  reflexivity.
Defined.

(** X11. [deleteStudentRecord] prints the "Removed" line exactly when the
    store got smaller, which is exactly when some record had the id. *)
Theorem deleteStudentRecord_reports_iff_shrinks (db : t) (id : Z) :
  (Method.output (deleteStudentRecord id) db = msg_removed id
   <-> (length (records (Method.object_after (deleteStudentRecord id) db))
        < length (records db))%nat)
  /\ (Method.output (deleteStudentRecord id) db = msg_removed id
      <-> has_id id db = true).
Proof.
  rewrite output_of_delete, records_after_delete. unfold has_id.
  destruct (existsb (matches id) (records db)) eqn:Hex.
  - split; split; intros _; try reflexivity.
    apply filter_drops_some. rewrite forallb_negb_existsb, Hex. reflexivity.
  - pose proof (msg_not_found_is_not_removed id) as Hne.
    apply String.eqb_neq in Hne.
    rewrite filter_keeps_all
      by (rewrite forallb_negb_existsb, Hex; reflexivity).
    split; split; intros H; try contradiction; try discriminate; lia.
Qed.

End Composing.

(** ** Counts, listings and the invariant of distinct ids *)

Section Sizes.
Import LegacyStudentDatabase Script.

(** X12. In a store of fewer than [INT_MAX] records an insert raises the
    count by exactly one, whatever the id, also when the id is already
    there. *)
Theorem insertStudentRecord_count
    (db : t) (id : Z) (name : string) (score : float) :
  Z.of_nat (length (records db)) < INT_MAX ->
  getRecordCount (Method.object_after (insertStudentRecord id name score) db)
  = getRecordCount db + 1.
Proof.
  intros Hlt.
  assert (Hlen :
    Z.of_nat (length (records (Method.object_after
                                 (insertStudentRecord id name score) db)))
    = Z.of_nat (length (records db)) + 1).
  { rewrite records_after_insert, length_app. simpl length. lia. }
  rewrite !getRecordCount_small; lia.
Qed.

Lemma insertStudentRecord_count_witness :
  getRecordCount
    (Method.object_after (insertStudentRecord 7 "Ann III" Samples.score_0)
       Samples.with_duplicate)
  = getRecordCount Samples.with_duplicate + 1.
Proof.
  apply (insertStudentRecord_count Samples.with_duplicate 7 "Ann III"
           Samples.score_0).
  vm_compute. reflexivity.
Defined.

(** X13. In a store of at most [INT_MAX] records a delete lowers the count
    by the number of stored records that have the id: by nothing when there
    is none, by more than one when the id is duplicated. *)
Theorem deleteStudentRecord_count (db : t) (id : Z) :
  Z.of_nat (length (records db)) <= INT_MAX ->
  getRecordCount (Method.object_after (deleteStudentRecord id) db)
  = getRecordCount db - Z.of_nat (count_id id db).
Proof.
  intros Hle. pose proof (delete_size id db) as Hsize.
  rewrite !getRecordCount_small; lia.
Qed.

Lemma deleteStudentRecord_count_witness :
  getRecordCount
    (Method.object_after (deleteStudentRecord 7) Samples.with_duplicate)
  = getRecordCount Samples.with_duplicate
    - Z.of_nat (count_id 7 Samples.with_duplicate).
Proof.
  apply (deleteStudentRecord_count Samples.with_duplicate 7).
  vm_compute. discriminate.
Defined.

(** X14. The listing after an insert is the listing before it followed by
    the line of the new record: what is inserted can be read back as the
    last entry, and the earlier entries do not move. *)
Theorem fetchAllRecords_after_insert
    (db : t) (id : Z) (name : string) (score : float) :
  fetchAllRecords (Method.object_after (insertStudentRecord id name score) db)
  = List.app (fetchAllRecords db)
      ["ID: " ++ to_string_int id ++ ", Name: " ++ name
         ++ ", Score: " ++ to_string_float score].
Proof.
  rewrite !fetchAllRecords_map, records_after_insert, map_app. reflexivity.
Qed.

(** X15. Pairwise distinct ids are an invariant of every script whose
    inserts use ids that are not in the store at that moment: deletes and
    updates never break it. *)
Theorem fresh_inserts_keep_ids_distinct (ops : list op) (db : t) :
  ids_distinct db ->
  inserts_fresh ops db = true ->
  ids_distinct (store_after ops db).
Proof.
  revert db. induction ops as [|o ops IH]; intros db Hnd Hfresh.
  - rewrite store_after_nil. exact Hnd.
  - simpl in Hfresh. apply andb_true_iff in Hfresh as [Ho Hops].
    rewrite store_after_cons. apply IH; [|exact Hops].
    apply step_keeps_distinct; [exact Hnd|].
    destruct o; [|exact I|exact I].
    apply negb_true_iff. exact Ho.
Qed.

Lemma fresh_inserts_keep_ids_distinct_witness :
  ids_distinct
    (store_after
       [Insert 1 "A" Samples.score_0; Delete 9; Update 7 "Zoe" Samples.score_0;
        Insert 9 "B" Samples.score_0]
       Samples.distinct_store).
Proof.
  apply fresh_inserts_keep_ids_distinct.
  - unfold ids_distinct. repeat constructor; simpl; intuition discriminate.
  - reflexivity.
Defined.

End Sizes.

(** ** The client's display *)

Section Display.
Import StudentManagementClient.

Lemma for_each_cout {Obj A : Type} (line : A -> string) (xs : list A)
    (o : Obj) :
  Method.for_each (fun x => Method.cout (line x)) xs o
  = (tt, o, fold_right (fun x rest => line x ++ rest) "" xs).
Proof.
  induction xs as [|x xs IH]; [reflexivity|].
  cbn [Method.for_each fold_right]. unfold Method.bind at 1.
  unfold Method.cout at 1. rewrite IH. reflexivity.
Qed.

Lemma string_app_assoc (a b c : string) : (a ++ b) ++ c = a ++ b ++ c.
Proof. induction a as [|x a IH]; simpl; [reflexivity|]. f_equal. exact IH. Qed.

Lemma displayAllStudents_eq {T : Type} {impl : ModernStudentSystem.t T}
    (system : T) :
  displayAllStudents system
  = (tt, system,
     "Total Students: "
       ++ to_string_int (ModernStudentSystem.getTotalStudents system)
       ++ endl
       ++ fold_right (fun info rest => (info ++ endl) ++ rest) ""
            (ModernStudentSystem.getAllStudentsInfo system)).
Proof.
  pose proof
    (for_each_cout (fun info => info ++ endl)
       (ModernStudentSystem.getAllStudentsInfo system) system) as Hlines.
  unfold displayAllStudents, Method.bind, Method.this, Method.cout in *.
  cbv beta iota. rewrite Hlines. cbn [append].
  rewrite !string_app_assoc. reflexivity.
Qed.

(** X17. On the adapter, [displayAllStudents] prints the count of the
    legacy store and then one line per stored record, in storage order,
    each in the form "ID: i, Name: n, Score: s"; the store is not
    touched. *)
Theorem displayAllStudents_on_adapter (a : StudentSystemAdapter.t) :
  let db := StudentSystemAdapter.legacySystem a in
  Method.object_after displayAllStudents a = a
  /\ Method.output displayAllStudents a
     = "Total Students: "
         ++ to_string_int (LegacyStudentDatabase.getRecordCount db)
         ++ endl
         ++ fold_right
              (fun record rest =>
                 (LegacyStudentDatabase.format_record record ++ endl) ++ rest)
              "" (LegacyStudentDatabase.records db).
Proof.
  cbv zeta. unfold Method.object_after, Method.output.
  rewrite displayAllStudents_eq. split; [reflexivity|]. cbn [snd].
  cbn [ModernStudentSystem.getAllStudentsInfo
         ModernStudentSystem.getTotalStudents
         StudentSystemAdapter_ModernStudentSystem].
  unfold StudentSystemAdapter.getAllStudentsInfo,
    StudentSystemAdapter.getTotalStudents.
  rewrite fetchAllRecords_map. do 3 f_equal.
  induction (LegacyStudentDatabase.records
               (StudentSystemAdapter.legacySystem a)) as [|r rs IH];
    simpl; [reflexivity|].
  rewrite IH. reflexivity.
Qed.

End Display.
